(** * hickle.helpers: a shallow embedding of the helper classes

    The module [hickle/helpers.py] holds the abstract container protocol
    ([PyContainer]), the attribute-overlay proxy ([H5NodeFilterProxy]),
    the keyword filter [no_compression], the placeholder [not_dumpable]
    and the string-attribute readers [load_str_attr] and friends.

    Python objects are mutable and shared; the embedding threads the
    state explicitly: the HDF5 file is a finite map from node handles to
    nodes, a method on an object takes the object and returns the
    updated object next to its outcome, and an outcome is either a
    returned value or a raised exception. *)

From Stdlib Require Import ZArith Lia.
From Stdlib Require Import Strings.String Strings.Ascii Strings.Byte.
From stdpp Require Import base option list gmap strings.

Open Scope string_scope.

(** ** Exceptions and outcomes *)

(** A raised exception is identified by the name of its class and carries
    a message. *)
Record exception := Exception { exn_class : string; exn_msg : string }.

Definition NotImplementedError (msg : string) := Exception "NotImplementedError" msg.
Definition RuntimeError (msg : string) := Exception "RuntimeError" msg.
Definition KeyError (msg : string) := Exception "KeyError" msg.
Definition AttributeError (msg : string) := Exception "AttributeError" msg.
Definition TypeError (msg : string) := Exception "TypeError" msg.
Definition IndexError (msg : string) := Exception "IndexError" msg.
Definition ValueError (msg : string) := Exception "ValueError" msg.
Definition UnicodeDecodeError (msg : string) := Exception "UnicodeDecodeError" msg.

Inductive result (A : Type) : Type :=
| Return (a : A)
| Raise (e : exception).
Arguments Return {A} a.
Arguments Raise {A} e.

Definition bind {A B : Type} (r : result A) (k : A -> result B) : result B :=
  match r with
  | Return a => k a
  | Raise e => Raise e
  end.

Notation "x <- r ;; k" := (bind r (fun x => k))
  (at level 100, r at next level, right associativity).

Definition returned {A : Type} (r : result A) : Prop :=
  match r with Return _ => True | Raise _ => False end.

Definition raises {A : Type} (r : result A) (cls : string) : Prop :=
  match r with Return _ => False | Raise e => exn_class e = cls end.

(** Two outcomes agree: the same value, or exceptions of the same class. *)
Definition same_outcome {A : Type} (r1 r2 : result A) : Prop :=
  match r1, r2 with
  | Return a, Return b => a = b
  | Raise e1, Raise e2 => exn_class e1 = exn_class e2
  | _, _ => False
  end.

(** ** Python values *)

(** Handle of a node of the HDF5 file. *)
Definition node_id := positive.

(** The values that travel through the helpers.  A [str] is kept as the
    byte string of its UTF-8 encoding, [bytes] as a list of bytes.  A
    [PyNode] is an [h5py.Group] or [h5py.Dataset] object, a
    [PyAttributeManager] the [attrs] object of a node, [PyItems] the
    bound method [items] of a group; all three refer to the node by its
    handle, so they alias the file and never copy it.  [PyChainMap] is a
    [collections.ChainMap] with its list [maps]; each map is a dict that
    the ChainMap alone refers to, or the attribute manager of a node. *)
#[local] Set Warnings "-register-all".
Inductive pyobj : Type :=
| PyNone
| PyBool (b : bool)
| PyInt (z : Z)
| PyBytes (b : list byte)
| PyStr (s : string)
| PyList (l : list pyobj)
| PyTuple (l : list pyobj)
| PyNode (n : node_id)
| PyAttributeManager (n : node_id)
| PyItems (n : node_id)
| PyChainMap (maps : list mapping)
with mapping : Type :=
| Dict (d : gmap string pyobj)
| Attrs (n : node_id).

(** ** The storage backend (h5py)

    The helpers reach the file through a handful of operations of h5py
    only: the attribute manager of a node, attribute access and indexing
    on a node, and the [items] of a group. *)

Inductive h5_kind : Type :=
| Group (members : list (string * node_id))
| Dataset (data : list pyobj).

(** A node: its persisted attributes, its payload, and the remaining
    properties of the Python object ([name], [shape], [dtype], ...). *)
Record h5_node := H5Node {
  h5_attrs : gmap string pyobj;
  h5_payload : h5_kind;
  h5_props : gmap string pyobj
}.

Abbreviation h5_file := (gmap node_id h5_node).

Definition with_node {A : Type} (f : h5_file) (n : node_id)
    (k : h5_node -> result A) : result A :=
  match f !! n with
  | Some node => k node
  | None => Raise (ValueError "Invalid location identifier")
  end.

(** [node.attrs]: every read of the property gives a manager bound to
    the node; the manager reads the attributes the node has at the time
    of the lookup. *)
Definition AttributeManager___getitem__ (f : h5_file) (n : node_id)
    (name : string) : result pyobj :=
  with_node f n (fun node =>
    match h5_attrs node !! name with
    | Some v => Return v
    | None => Raise (KeyError "Can't open attribute (can't locate attribute)")
    end).

(** [getattr(node, name)] on a real node. *)
Definition h5_getattr (f : h5_file) (n : node_id) (name : string) : result pyobj :=
  with_node f n (fun node =>
    if decide (name = "attrs") then Return (PyAttributeManager n)
    else if decide (name = "items") then
      match h5_payload node with
      | Group _ => Return (PyItems n)
      | Dataset _ => Raise (AttributeError "'Dataset' object has no attribute 'items'")
      end
    else
      match h5_props node !! name with
      | Some v => Return v
      | None => Raise (AttributeError name)
      end).

(** [node[key]] on a real node: a member of a group by name, an element
    of a dataset by position. *)
Definition h5_getitem (f : h5_file) (n : node_id) (key : pyobj) : result pyobj :=
  with_node f n (fun node =>
    match h5_payload node, key with
    | Group members, PyStr name =>
        match list_find (fun m => m.1 = name) members with
        | Some (_, (_, child)) => Return (PyNode child)
        | None => Raise (KeyError name)
        end
    | Group _, _ => Raise (TypeError "Accessing a group is done with bytes or str")
    | Dataset data, PyInt i =>
        if (0 <=? i)%Z then
          match data !! Z.to_nat i with
          | Some v => Return v
          | None => Raise (IndexError "Index out of range")
          end
        else Raise (IndexError "Index out of range")
    | Dataset data, PyTuple [] => Return (PyList data)
    | Dataset _, _ => Raise (TypeError "Illegal index")
    end).

(** Calling the bound method [items] of a group: the direct members in
    storage order, each with the node object it names. *)
Definition h5_items (f : h5_file) (n : node_id) : result (list (string * pyobj)) :=
  with_node f n (fun node =>
    match h5_payload node with
    | Group members => Return (prod_map id PyNode <$> members)
    | Dataset _ => Raise (AttributeError "'Dataset' object has no attribute 'items'")
    end).

(** [node.attrs[name] = value] on the real manager: this is the write
    that reaches the file. *)
Definition AttributeManager___setitem__ (f : h5_file) (n : node_id)
    (name : string) (value : pyobj) : h5_file * result unit :=
  match f !! n with
  | Some node =>
      (<[n := H5Node (<[name := value]> (h5_attrs node)) (h5_payload node)
                     (h5_props node)]> f, Return tt)
  | None => (f, Raise (ValueError "Invalid location identifier"))
  end.

(** [del node.attrs[name]] on the real manager. *)
Definition AttributeManager___delitem__ (f : h5_file) (n : node_id)
    (name : string) : h5_file * result unit :=
  match f !! n with
  | Some node =>
      match h5_attrs node !! name with
      | Some _ =>
          (<[n := H5Node (delete name (h5_attrs node)) (h5_payload node)
                         (h5_props node)]> f, Return tt)
      | None => (f, Raise (KeyError "Can't delete attribute (can't locate attribute)"))
      end
  | None => (f, Raise (ValueError "Invalid location identifier"))
  end.

(** ** collections.ChainMap *)

Definition mapping___getitem__ (m : mapping) (key : string) (f : h5_file)
    : result pyobj :=
  match m with
  | Dict d =>
      match d !! key with
      | Some v => Return v
      | None => Raise (KeyError key)
      end
  | Attrs n => AttributeManager___getitem__ f n key
  end.

Definition mapping___setitem__ (m : mapping) (key : string) (value : pyobj)
    (f : h5_file) : (h5_file * mapping) * result unit :=
  match m with
  | Dict d => ((f, Dict (<[key := value]> d)), Return tt)
  | Attrs n =>
      let '(f', r) := AttributeManager___setitem__ f n key value in
      ((f', Attrs n), r)
  end.

Definition mapping___delitem__ (m : mapping) (key : string) (f : h5_file)
    : (h5_file * mapping) * result unit :=
  match m with
  | Dict d =>
      match d !! key with
      | Some _ => ((f, Dict (delete key d)), Return tt)
      | None => ((f, m), Raise (KeyError key))
      end
  | Attrs n =>
      let '(f', r) := AttributeManager___delitem__ f n key in
      ((f', Attrs n), r)
  end.

Record ChainMap := { maps : list mapping }.

(** The constructor of [ChainMap]: [self.maps = list(maps) or [{}]]. *)
Definition ChainMap___init__ (maps : list mapping) : ChainMap :=
  {| maps := match maps with [] => [Dict ∅] | _ => maps end |}.

(** The loop of [ChainMap.__getitem__]: the maps are tried in order, a
    [KeyError] of one map moves on to the next, and after the last map
    [__missing__] raises [KeyError]. *)
Fixpoint lookup_maps (maps : list mapping) (key : string) (f : h5_file)
    : result pyobj :=
  match maps with
  | [] => Raise (KeyError key)
  | m :: rest =>
      match mapping___getitem__ m key f with
      | Return v => Return v
      | Raise e =>
          if decide (exn_class e = "KeyError") then lookup_maps rest key f
          else Raise e
      end
  end.

Definition ChainMap___getitem__ (cm : ChainMap) (key : string) (f : h5_file)
    : result pyobj :=
  lookup_maps (maps cm) key f.

(** [ChainMap.__setitem__]: [self.maps[0][key] = value]. *)
Definition ChainMap___setitem__ (cm : ChainMap) (key : string) (value : pyobj)
    (f : h5_file) : (h5_file * ChainMap) * result unit :=
  match maps cm with
  | m0 :: rest =>
      let '((f', m0'), r) := mapping___setitem__ m0 key value f in
      ((f', {| maps := m0' :: rest |}), r)
  | [] => ((f, cm), Raise (IndexError "list index out of range"))
  end.

(** [ChainMap.__delitem__]: [del self.maps[0][key]], a [KeyError] being
    raised again with the message of the ChainMap. *)
Definition ChainMap___delitem__ (cm : ChainMap) (key : string) (f : h5_file)
    : (h5_file * ChainMap) * result unit :=
  match maps cm with
  | m0 :: rest =>
      let '((f', m0'), r) := mapping___delitem__ m0 key f in
      ((f', {| maps := m0' :: rest |}),
       match r with
       | Return _ => Return tt
       | Raise e =>
           if decide (exn_class e = "KeyError")
           then Raise (KeyError "Key not found in the first mapping")
           else Raise e
       end)
  | [] => ((f, cm), Raise (IndexError "list index out of range"))
  end.

(** ** class H5NodeFilterProxy *)

Module H5NodeFilterProxy.

(** The two slots of the proxy.  [__setattr__] stores these two names
    on the proxy and hands every other assignment on to the wrapped node;
    assignments to the proxy are not among the uses considered below. *)
Record t := { _h5_node : node_id; attrs : ChainMap }.

(** [self._h5_node = h5_node; self.attrs = ChainMap({}, h5_node.attrs)]:
    both names are in the set tested by [__setattr__], so both are
    stored on the proxy itself.  The dict is new, and the second map is
    the manager of the node, not a copy of its attributes. *)
Definition __init__ (h5_node : node_id) : t :=
  {| _h5_node := h5_node;
     attrs := ChainMap___init__ [Dict ∅; Attrs h5_node] |}.

(** [super().__getattribute__(name)] for the two slot names. *)
Definition object___getattribute__ (self : t) (name : string) : result pyobj :=
  if decide (name = "attrs") then Return (PyChainMap (maps (attrs self)))
  else if decide (name = "_h5_node") then Return (PyNode (_h5_node self))
  else Raise (AttributeError name).

Definition __getattribute__ (self : t) (name : string) (f : h5_file)
    : result pyobj :=
  if decide (name ∈ ["attrs"; "_h5_node"]) then
    object___getattribute__ self name
  else
    h5_getattr f (_h5_node self) name.

Definition __getitem__ (self : t) (key : pyobj) (f : h5_file) : result pyobj :=
  h5_getitem f (_h5_node self) key.

(** The three ways the overlay is used: [proxy.attrs[key]],
    [proxy.attrs[key] = value] and [del proxy.attrs[key]].  The
    ChainMap reached through the slot is the one the proxy holds, so
    what the call does to it is done to the proxy. *)
Definition attrs_getitem (self : t) (key : string) (f : h5_file) : result pyobj :=
  ChainMap___getitem__ (attrs self) key f.

Definition attrs_setitem (self : t) (key : string) (value : pyobj) (f : h5_file)
    : (h5_file * t) * result unit :=
  let '((f', cm), r) := ChainMap___setitem__ (attrs self) key value f in
  ((f', {| _h5_node := _h5_node self; attrs := cm |}), r).

Definition attrs_delitem (self : t) (key : string) (f : h5_file)
    : (h5_file * t) * result unit :=
  let '((f', cm), r) := ChainMap___delitem__ (attrs self) key f in
  ((f', {| _h5_node := _h5_node self; attrs := cm |}), r).

(** The first map of [proxy.attrs] when it is a dict. *)
Definition overlay (self : t) : gmap string pyobj :=
  match maps (attrs self) with
  | Dict d :: _ => d
  | _ => ∅
  end.

(** The shape [__init__] gives to a proxy of node [n]: a dict first,
    the manager of [n] second. *)
Definition wraps (self : t) (n : node_id) (d : gmap string pyobj) : Prop :=
  _h5_node self = n /\ maps (attrs self) = [Dict d; Attrs n].

(** One use of a proxy by a loader. *)
Inductive use : Type :=
| ReadAttr (key : string)
| WriteAttr (key : string) (value : pyobj)
| DelAttr (key : string)
| GetAttr (name : string)
| GetItem (key : pyobj).

(** The state is the file together with the proxy. *)
Definition step (u : use) (st : h5_file * t) : (h5_file * t) * result pyobj :=
  let '(f, self) := st in
  match u with
  | ReadAttr key => (st, attrs_getitem self key f)
  | WriteAttr key value =>
      let '(st', r) := attrs_setitem self key value f in
      (st', _ <- r ;; Return PyNone)
  | DelAttr key =>
      let '(st', r) := attrs_delitem self key f in
      (st', _ <- r ;; Return PyNone)
  | GetAttr name => (st, __getattribute__ self name f)
  | GetItem key => (st, __getitem__ self key f)
  end.

(** A whole session; a caller may catch what a use raises and go on. *)
Definition run (uses : list use) (st : h5_file * t) : h5_file * t :=
  fold_left (fun st u => (step u st).1) uses st.

(** What one use does to the entry of [key] in the overlay. *)
Definition track (key : string) (o : option pyobj) (u : use) : option pyobj :=
  match u with
  | WriteAttr k v => if decide (k = key) then Some v else o
  | DelAttr k => if decide (k = key) then None else o
  | _ => o
  end.

(** The value last assigned to [key] through the overlay and not
    deleted since, going through the uses from the first to the last. *)
Definition overridden (uses : list use) (key : string) : option pyobj :=
  fold_left (track key) uses None.

End H5NodeFilterProxy.

(** What a loader may be handed as a node: a real node or a proxy. *)
Inductive h5_like : Type :=
| RealNode (n : node_id)
| Proxied (p : H5NodeFilterProxy.t).

Definition getattr (h : h5_like) (name : string) (f : h5_file) : result pyobj :=
  match h with
  | RealNode n => h5_getattr f n name
  | Proxied p => H5NodeFilterProxy.__getattribute__ p name f
  end.

(** [len(h)]: a special method is looked up on the class, not through
    [__getattribute__].  The nodes of h5py define [__len__]; the class
    [H5NodeFilterProxy] defines [__getitem__] and no other special method
    of containers (see the note that closes the class). *)
Definition builtin_len (h : h5_like) (f : h5_file) : result pyobj :=
  match h with
  | RealNode n =>
      with_node f n (fun node =>
        match h5_payload node with
        | Group members => Return (PyInt (Z.of_nat (length members)))
        | Dataset data => Return (PyInt (Z.of_nat (length data)))
        end)
  | Proxied _ => Raise (TypeError "object of type 'H5NodeFilterProxy' has no len()")
  end.

(** Calling an object without arguments and iterating what it returns. *)
Definition call_items (callee : pyobj) (f : h5_file)
    : result (list (string * pyobj)) :=
  match callee with
  | PyItems n => h5_items f n
  | _ => Raise (TypeError "object is not callable")
  end.

(** [content.append(item)]. *)
Definition py_append (content item : pyobj) : result pyobj :=
  match content with
  | PyList l => Return (PyList (l ++ [item]))
  | _ => Raise (AttributeError "object has no attribute 'append'")
  end.

(** ** class PyContainer *)

Module PyContainer.

Record t := {
  base_type : pyobj;
  object_type : pyobj;
  _h5_attrs : pyobj;
  _content : pyobj
}.

(** [_content] defaults to [None], which stands for a new empty list. *)
Definition __init__ (h5_attrs base_type object_type _content : pyobj) : t :=
  {| base_type := base_type;
     object_type := object_type;
     _h5_attrs := h5_attrs;
     _content := match _content with PyNone => PyList [] | c => c end |}.

(** [yield from h_parent.items()]: the generator is modelled by the
    sequence it yields. *)
Definition filter (self : t) (h_parent : h5_like) (f : h5_file)
    : result (list (string * pyobj)) :=
  items <- getattr h_parent "items" f ;;
  call_items items f.

Definition append (self : t) (name : string) (item h5_attrs : pyobj)
    : t * result unit :=
  match py_append (_content self) item with
  | Return content =>
      ({| base_type := base_type self; object_type := object_type self;
          _h5_attrs := _h5_attrs self; _content := content |}, Return tt)
  | Raise e => (self, Raise e)
  end.

Definition convert (self : t) : t * result pyobj :=
  (self, Raise (NotImplementedError "convert method must be implemented")).

(** A run of [append] calls, each given as (name, item, attributes);
    the outcome of every call is recorded. *)
Fixpoint appends (self : t) (calls : list (string * pyobj * pyobj))
    : t * list (result unit) :=
  match calls with
  | [] => (self, [])
  | (name, item, h5_attrs) :: rest =>
      let '(self1, r) := append self name item h5_attrs in
      let '(self2, rs) := appends self1 rest in
      (self2, r :: rs)
  end.

End PyContainer.

(** ** class no_compression(dict) *)

(** Keys of a dict: keyword names, and any other hashable value, which
    is never equal to one of the names that are filtered out. *)
Inductive pykey : Type :=
| KStr (s : string)
| KInt (z : Z).

#[global] Instance pykey_eq_dec : EqDecision pykey.
Proof. solve_decision. Defined.

#[global] Instance pykey_countable : Countable pykey.
Proof.
  refine (inj_countable'
    (fun k => match k with KStr s => inl s | KInt z => inr z end)
    (fun x => match x with inl s => KStr s | inr z => KInt z end) _).
  intros []; reflexivity.
Defined.

(** [dict(pairs)]: the pairs are stored one after the other, a later
    pair replacing an earlier one with the same key. *)
Definition dict_init (pairs : list (pykey * pyobj)) : gmap pykey pyobj :=
  fold_left (fun d kv => <[kv.1 := kv.2]> d) pairs ∅.

(** The argument of [no_compression]: a dict, or any iterable of pairs. *)
Inductive mapping_arg : Type :=
| ArgDict (d : gmap pykey pyobj)
| ArgIterable (pairs : list (pykey * pyobj)).

Definition compression_keys : list pykey :=
  KStr <$> ["compression"; "shuffle"; "compression_opts"; "chunks";
            "fletcher32"; "scaleoffset"].

(** [mapping.items() if isinstance(mapping,dict) else mapping] *)
Definition arg_items (mapping : mapping_arg) : list (pykey * pyobj) :=
  match mapping with
  | ArgDict d => map_to_list d
  | ArgIterable pairs => pairs
  end.

(** The keyword arguments are accepted and not used. *)
Definition no_compression (mapping : mapping_arg) (kwargs : gmap string pyobj)
    : gmap pykey pyobj :=
  dict_init (filter (fun kv => kv.1 ∉ compression_keys) (arg_items mapping)).

(** The mapping an argument stands for: the dict itself, or the dict its
    pairs build. *)
Definition arg_dict (mapping : mapping_arg) : gmap pykey pyobj :=
  match mapping with
  | ArgDict d => d
  | ArgIterable pairs => dict_init pairs
  end.

(** ** not_dumpable *)

(** The function receives the file through [h_group] and could create a
    node in it; it returns the file it leaves behind and its outcome. *)
Definition not_dumpable (py_obj : pyobj) (h_group : node_id) (name : string)
    (kwargs : gmap string pyobj) (f : h5_file) : h5_file * result pyobj :=
  (f, Raise (RuntimeError "types defined by loaders not dumpable")).

(** ** Reading string attributes *)

Definition byte_in (lo hi : N) (b : byte) : bool :=
  (lo <=? Byte.to_N b)%N && (Byte.to_N b <=? hi)%N.

(** Well-formed UTF-8: no overlong form, no surrogate, nothing above
    U+10FFFF. *)
Fixpoint utf8_valid (l : list byte) : bool :=
  match l with
  | [] => true
  | b0 :: l1 =>
      if byte_in 0x00 0x7F b0 then utf8_valid l1 else
      match l1 with
      | [] => false
      | b1 :: l2 =>
          if byte_in 0xC2 0xDF b0 then byte_in 0x80 0xBF b1 && utf8_valid l2 else
          match l2 with
          | [] => false
          | b2 :: l3 =>
              if byte_in 0xE0 0xE0 b0 then
                byte_in 0xA0 0xBF b1 && byte_in 0x80 0xBF b2 && utf8_valid l3
              else if byte_in 0xE1 0xEC b0 || byte_in 0xEE 0xEF b0 then
                byte_in 0x80 0xBF b1 && byte_in 0x80 0xBF b2 && utf8_valid l3
              else if byte_in 0xED 0xED b0 then
                byte_in 0x80 0x9F b1 && byte_in 0x80 0xBF b2 && utf8_valid l3
              else
              match l3 with
              | [] => false
              | b3 :: l4 =>
                  let tail := byte_in 0x80 0xBF b2 && byte_in 0x80 0xBF b3
                              && utf8_valid l4 in
                  if byte_in 0xF0 0xF0 b0 then byte_in 0x90 0xBF b1 && tail
                  else if byte_in 0xF1 0xF3 b0 then byte_in 0x80 0xBF b1 && tail
                  else if byte_in 0xF4 0xF4 b0 then byte_in 0x80 0x8F b1 && tail
                  else false
              end
          end
      end
  end.

(** [value.decode(encoding)]: only [bytes] has the method. *)
Definition decode (value : pyobj) (encoding : string) : result pyobj :=
  match value with
  | PyBytes b =>
      if decide (encoding = "ascii") then
        if forallb (byte_in 0x00 0x7F) b then Return (PyStr (string_of_list_byte b))
        else Raise (UnicodeDecodeError "'ascii' codec can't decode byte")
      else if decide (encoding = "utf8") then
        if utf8_valid b then Return (PyStr (string_of_list_byte b))
        else Raise (UnicodeDecodeError "'utf-8' codec can't decode byte")
      else Raise (Exception "LookupError" "unknown encoding")
  | _ => Raise (AttributeError "object has no attribute 'decode'")
  end.

(** [attrs[name]] for the objects used as attribute mappings. *)
Definition attrs_lookup (f : h5_file) (attrs : pyobj) (name : string)
    : result pyobj :=
  match attrs with
  | PyAttributeManager n => AttributeManager___getitem__ f n name
  | PyChainMap maps => ChainMap___getitem__ {| maps := maps |} name f
  | _ => Raise (TypeError "object is not subscriptable")
  end.

(** Whether the bytes start with a continuation byte. *)
Definition continues (l : list byte) : bool :=
  match l with
  | c :: _ => byte_in 0x80 0xBF c
  | [] => false
  end.

(** The characters of a text: a byte that is followed by continuation
    bytes is kept together with them. *)
Fixpoint utf8_chars (l : list byte) : list (list byte) :=
  match l with
  | [] => []
  | b :: rest =>
      match utf8_chars rest with
      | ch :: chs => if continues rest then (b :: ch) :: chs else [b] :: ch :: chs
      | [] => [[b]]
      end
  end.

(** [for value in obj]: the elements of a list or a tuple, the bytes of
    a byte string as integers, the characters of a text. *)
Definition py_iter (obj : pyobj) : result (list pyobj) :=
  match obj with
  | PyList l | PyTuple l => Return l
  | PyBytes b => Return ((fun x => PyInt (Z.of_N (Byte.to_N x))) <$> b)
  | PyStr s =>
      Return ((fun ch => PyStr (string_of_list_byte ch))
                <$> utf8_chars (list_byte_of_string s))
  | _ => Raise (TypeError "object is not iterable")
  end.

Fixpoint decode_each (values : list pyobj) (encoding : string)
    : result (list pyobj) :=
  match values with
  | [] => Return []
  | value :: rest =>
      s <- decode value encoding ;;
      ss <- decode_each rest encoding ;;
      Return (s :: ss)
  end.

(** A function of the module that reads an attribute. *)
Definition reader : Type := h5_file -> pyobj -> string -> result pyobj.

(** [h5.AttributeManager.get], the method [get] of [Mapping] taken from
    the class: [attrs[name]], or [None] on [KeyError]. *)
Definition h5_AttributeManager_get : reader := fun f attrs name =>
  match attrs_lookup f attrs name with
  | Return v => Return v
  | Raise e => if decide (exn_class e = "KeyError") then Return PyNone else Raise e
  end.

(** The four functions of the [else] branch. *)
Definition load_str_list_attr_ascii : reader := fun f attrs name =>
  v <- attrs_lookup f attrs name ;;
  values <- py_iter v ;;
  l <- decode_each values "ascii" ;; Return (PyList l).

Definition load_str_list_attr : reader := fun f attrs name =>
  v <- attrs_lookup f attrs name ;;
  values <- py_iter v ;;
  l <- decode_each values "utf8" ;; Return (PyList l).

Definition load_str_attr_ascii : reader := fun f attrs name =>
  v <- attrs_lookup f attrs name ;; decode v "ascii".

Definition load_str_attr : reader := fun f attrs name =>
  v <- attrs_lookup f attrs name ;; decode v "utf8".

(** The names bound by the [if] statement that closes the module, by
    the first component of [h5.version.version_tuple].  An assignment [a = b = e] binds [a],
    then [b]; a [def] binds its name. *)
Definition assign (name : string) (value : reader) (g : gmap string reader)
    : gmap string reader := <[name := value]> g.

Definition module_globals (h5_major : Z) : gmap string reader :=
  if (3 <=? h5_major)%Z then
    let g := assign "load_str_list_attr_ascii" h5_AttributeManager_get ∅ in
    let g := assign "load_str_list_attr" h5_AttributeManager_get g in
    let g := assign "load_str_attr_ascii" h5_AttributeManager_get g in
    let g := assign "load_str_list_attr" h5_AttributeManager_get g in
    g
  else
    let g := assign "load_str_list_attr_ascii" load_str_list_attr_ascii ∅ in
    let g := assign "load_str_list_attr" load_str_list_attr g in
    let g := assign "load_str_attr_ascii" load_str_attr_ascii g in
    let g := assign "load_str_attr" load_str_attr g in
    g.

(** [helpers.name(attrs, key)]: a name the module does not bind fails
    with [AttributeError]. *)
Definition call_helper (h5_major : Z) (name : string) : reader :=
  fun f attrs key =>
    match module_globals h5_major !! name with
    | Some fn => fn f attrs key
    | None => Raise (AttributeError name)
    end.

(** ** Classes derived from PyContainer, and their registration *)

(** A container class: each of the three methods is defined by the class
    or inherited from [PyContainer]. *)
Record container_class := {
  class_name : string;
  def_filter :
    option (PyContainer.t -> h5_like -> h5_file -> result (list (string * pyobj)));
  def_append :
    option (PyContainer.t -> string -> pyobj -> pyobj -> PyContainer.t * result unit);
  def_convert : option (PyContainer.t -> PyContainer.t * result pyobj)
}.

Definition method_filter (cls : container_class) :=
  default PyContainer.filter (def_filter cls).
Definition method_append (cls : container_class) :=
  default PyContainer.append (def_append cls).
Definition method_convert (cls : container_class) :=
  default PyContainer.convert (def_convert cls).

(** Every class in a registry defines [convert]. *)
Definition all_convertible (reg : gmap string container_class) : Prop :=
  forall tag cls, reg !! tag = Some cls -> is_Some (def_convert cls).

Section Registry.

(** Whether a new entry may replace the one registered under its tag. *)
Variable compatible : container_class -> container_class -> bool.

(** Modelled from the spec: the registration of container classes and
    the load step that uses them are not in helpers.py.  The registry
    maps a base type tag to a class; registration checks first that the
    class defines [convert] (the capability check), then that the tag
    does not collide with an incompatible entry; the last registration
    wins. *)
Definition register (tag : string) (cls : container_class)
    (reg : gmap string container_class) : result (gmap string container_class) :=
  match def_convert cls with
  | None => Raise (NotImplementedError "convert method must be implemented")
  | Some _ =>
      match reg !! tag with
      | Some old =>
          if compatible old cls then Return (<[tag := cls]> reg)
          else Raise (Exception "ConfigurationError" tag)
      | None => Return (<[tag := cls]> reg)
      end
  end.

(** Modelled from the spec: the registrations made at process start, a
    rejected one leaving the registry as it was. *)
Definition register_all (entries : list (string * container_class))
    : gmap string container_class :=
  fold_left (fun reg e =>
    match register e.1 e.2 reg with
    | Return reg' => reg'
    | Raise _ => reg
    end) entries ∅.

(** Modelled from the spec: [resolve_for_load] needs an exact match of
    the tag and fails with [UnknownTypeError] otherwise. *)
Definition resolve_for_load (reg : gmap string container_class) (tag : string)
    : result container_class :=
  match reg !! tag with
  | Some cls => Return cls
  | None => Raise (Exception "UnknownTypeError" tag)
  end.

(** Modelled from the spec: the load of a container node whose
    children are decoded already: the class is resolved from the tag
    and instantiated, every child is appended, then [convert] is called
    once. *)
Definition load_container (reg : gmap string container_class) (tag : string)
    (h5_attrs object_type : pyobj) (children : list (string * pyobj * pyobj))
    : result pyobj :=
  cls <- resolve_for_load reg tag ;;
  let c0 := PyContainer.__init__ h5_attrs (PyStr tag) object_type PyNone in
  c <- fold_left (fun rc child =>
         c <- rc ;;
         let '(c', r) := method_append cls c child.1.1 child.1.2 child.2 in
         _ <- r ;; Return c') children (Return c0) ;;
  (method_convert cls c).2.

End Registry.

(** ** A small file used in the examples *)

Definition file0 : h5_file :=
  {[ 1%positive := H5Node {[ "base_type" := PyBytes [x6c; x69; x73; x74] ]}
                     (Group [("data0", 2%positive); ("data1", 3%positive)])
                     {[ "name" := PyStr "/data" ]};
     2%positive := H5Node {[ "base_type" := PyBytes [x69; x6e; x74] ]}
                     (Dataset [PyInt 4; PyInt 5]) {[ "name" := PyStr "/data/data0" ]};
     3%positive := H5Node ∅ (Dataset [PyInt 6]) {[ "name" := PyStr "/data/data1" ]} ]}.

Definition file1 : h5_file :=
  {[ 1%positive :=
       H5Node {[ "type" := PyBytes [x6c; x69; x73; x74];
                 "title" := PyBytes [xc3; xa9];
                 "keys" := PyList [PyBytes [x61]; PyBytes [x62; x63]] ]}
              (Group []) ∅ ]}.

(** A class that defines [convert] and one that does not. *)
Definition ListLikeContainer : container_class :=
  {| class_name := "ListLikeContainer";
     def_filter := None;
     def_append := None;
     def_convert := Some (fun c => (c, Return (PyContainer._content c))) |}.

Definition UnfinishedContainer : container_class :=
  {| class_name := "UnfinishedContainer";
     def_filter := None;
     def_append := None;
     def_convert := None |}.

(** * Properties *)

(** ** The attribute overlay of H5NodeFilterProxy *)

Section ProxyOverlay.

Import H5NodeFilterProxy.

Implicit Types (f : h5_file) (p : t) (uses : list use) (d : gmap string pyobj).

Lemma init_wraps n : wraps (__init__ n) n ∅.
Proof. done. Qed.

(** One use keeps the shape and the file; the dict changes as [track]
    says. *)
Lemma step_wraps u f p n d :
  wraps p n d ->
  (step u (f, p)).1.1 = f
  /\ exists d', wraps (step u (f, p)).1.2 n d'
       /\ forall key, d' !! key = track key (d !! key) u.
Proof.
  intros [Hn Hm].
  destruct u as [k | k value | k | name | k]; simpl;
    try (split; [done |]; by exists d).
  - unfold attrs_setitem, ChainMap___setitem__. rewrite Hm. simpl.
    split; [done |]. exists (<[k := value]> d). split; [done |].
    intros key. destruct (decide (k = key)) as [-> | Hne].
    + by rewrite lookup_insert_eq.
    + by rewrite lookup_insert_ne.
  - unfold attrs_delitem, ChainMap___delitem__. rewrite Hm. simpl.
    destruct (d !! k) eqn:Hk; simpl.
    + split; [done |]. exists (delete k d). split; [done |].
      intros key. destruct (decide (k = key)) as [-> | Hne].
      * by rewrite lookup_delete_eq.
      * by rewrite lookup_delete_ne.
    + split; [done |]. exists d. split; [done |].
      intros key. destruct (decide (k = key)) as [-> | Hne]; done.
Qed.

Lemma run_wraps uses : forall f p n d,
  wraps p n d ->
  (run uses (f, p)).1 = f
  /\ exists d', wraps (run uses (f, p)).2 n d'
       /\ forall key, d' !! key = fold_left (track key) uses (d !! key).
Proof.
  induction uses as [| u uses IH]; intros f p n d Hw.
  - split; [done |]. by exists d.
  - unfold run in *. cbn [fold_left].
    destruct (step_wraps u f p n d Hw) as (Hf & d1 & Hw1 & Hd1).
    destruct (step u (f, p)) as [[f1 p1] r]. simpl in Hf, Hw1. subst f1.
    destruct (IH f p1 n d1 Hw1) as (Hf2 & d2 & Hw2 & Hd2).
    split; [exact Hf2 |]. exists d2. split; [exact Hw2 |].
    intros key. by rewrite Hd2, Hd1.
Qed.

(** A read through the overlay: the entry of the dict when there is one,
    else what the manager of the node gives. *)
Lemma attrs_getitem_cases p n d key f :
  wraps p n d ->
  same_outcome (attrs_getitem p key f)
    (match d !! key with
     | Some v => Return v
     | None => AttributeManager___getitem__ f n key
     end).
Proof.
  intros [_ Hm]. unfold attrs_getitem, ChainMap___getitem__. rewrite Hm.
  cbn [lookup_maps mapping___getitem__].
  destruct (d !! key); [done |].
  destruct (decide (exn_class (KeyError key) = "KeyError")) as [_ | ]; [| done].
  destruct (AttributeManager___getitem__ f n key) as [v | e]; [done |].
  destruct (decide (exn_class e = "KeyError")) as [Heq | ]; [| done].
  simpl. by rewrite Heq.
Qed.

(** C1.  Whatever a loader does with a proxy made for node [n]
    (reading, writing and deleting entries of [proxy.attrs], reading
    other attributes, indexing), the file afterwards is the file
    before, so every real attribute of the wrapped node reads as it did
    before the proxy was made. *)
Theorem proxy_discard_leaves_node_unchanged f n uses :
  (run uses (f, __init__ n)).1 = f
  /\ (run uses (f, __init__ n)).1 !! n = f !! n
  /\ forall key,
       AttributeManager___getitem__ (run uses (f, __init__ n)).1 n key
       = AttributeManager___getitem__ f n key.
Proof.
  destruct (run_wraps uses f (__init__ n) n ∅ (init_wraps n)) as (-> & _). done.
Qed.

(** C2.  For a proxy made for node [n] and used in any way: reading
    [proxy.attrs[key]] gives the value last written through the proxy
    when there is one, and otherwise what the attributes of the
    wrapped node give; writing [proxy.attrs[key] = value] changes the
    dict of the overlay only, the file with the attributes of the node
    stays as it was, and the value is what the next read returns. *)
Theorem proxy_attrs_read_write f n uses key :
  let st := run uses (f, __init__ n) in
  same_outcome (attrs_getitem st.2 key st.1)
    (match overridden uses key with
     | Some v => Return v
     | None => AttributeManager___getitem__ f n key
     end)
  /\ forall value,
       let st' := (step (WriteAttr key value) st).1 in
       st'.1 = f
       /\ overlay st'.2 = <[key := value]> (overlay st.2)
       /\ attrs_getitem st'.2 key st'.1 = Return value.
Proof.
  intros st. subst st.
  destruct (run_wraps uses f (__init__ n) n ∅ (init_wraps n))
    as (Hf & d & Hw & Hd).
  pose proof (attrs_getitem_cases _ n d key f Hw) as Hread.
  destruct (run uses (f, __init__ n)) as [f' p]. simpl in *. subst f'.
  split.
  - unfold overridden. rewrite Hd, lookup_empty in Hread. exact Hread.
  - intros value. destruct Hw as [Hn Hm].
    unfold attrs_setitem, ChainMap___setitem__, overlay, attrs_getitem,
      ChainMap___getitem__.
    rewrite Hm. simpl. by rewrite lookup_insert_eq.
Qed.

End ProxyOverlay.

(** A write through the real manager of the node reaches the file, and
    it is seen through the overlay of a proxy made before it: the second
    map of the overlay is the manager, not a copy. *)
Lemma overlay_reads_live_attributes f n node key value :
  f !! n = Some node ->
  H5NodeFilterProxy.attrs_getitem (H5NodeFilterProxy.__init__ n) key
    (AttributeManager___setitem__ f n key value).1 = Return value.
Proof.
  intros Hn. unfold AttributeManager___setitem__. rewrite Hn. simpl.
  unfold H5NodeFilterProxy.attrs_getitem, ChainMap___getitem__. simpl.
  rewrite lookup_empty.
  destruct (decide (exn_class (KeyError key) = "KeyError")) as [_ | ]; [| done].
  unfold AttributeManager___getitem__, with_node.
  rewrite lookup_insert_eq. simpl. by rewrite lookup_insert_eq.
Qed.

(** A loader overrides [base_type] on a proxy of the group of [file0],
    reads it back, and the node still holds what it held. *)
Example override_base_type :
  let st := H5NodeFilterProxy.run
              [H5NodeFilterProxy.WriteAttr "base_type" (PyBytes [x74; x75; x70]);
               H5NodeFilterProxy.WriteAttr "shape" (PyTuple [PyInt 2]);
               H5NodeFilterProxy.DelAttr "shape"]
              (file0, H5NodeFilterProxy.__init__ 1%positive) in
  H5NodeFilterProxy.attrs_getitem st.2 "base_type" st.1
  = Return (PyBytes [x74; x75; x70])
  /\ raises (H5NodeFilterProxy.attrs_getitem st.2 "shape" st.1) "KeyError"
  /\ AttributeManager___getitem__ st.1 1%positive "base_type"
     = Return (PyBytes [x6c; x69; x73; x74]).
Proof. repeat split; vm_compute; reflexivity. Qed.

(** Had the overlay been built with the manager first, a write through it
    would have reached the node. *)
Example manager_first_writes_node :
  AttributeManager___getitem__
    (ChainMap___setitem__ (ChainMap___init__ [Attrs 3%positive; Dict ∅])
       "base_type" (PyInt 0) file0).1.1 3%positive "base_type"
  = Return (PyInt 0)
  /\ raises (AttributeManager___getitem__ file0 3%positive "base_type") "KeyError".
Proof. split; vm_compute; reflexivity. Qed.

(** ** What the proxy forwards *)

(** C7, counterexample.  Reading [proxy._h5_node] is not an access to
    the attrs overlay, and it is not forwarded: the proxy answers with the
    wrapped node itself, while the node has no such attribute. *)
Lemma proxy_h5_node_not_forwarded :
  "_h5_node" <> "attrs"
  /\ H5NodeFilterProxy.__getattribute__ (H5NodeFilterProxy.__init__ 1%positive) "_h5_node" file0
     = Return (PyNode 1%positive)
  /\ h5_getattr file0 1%positive "_h5_node" = Raise (AttributeError "_h5_node")
  /\ H5NodeFilterProxy.__getattribute__ (H5NodeFilterProxy.__init__ 1%positive) "_h5_node" file0
     <> h5_getattr file0 1%positive "_h5_node".
Proof.
  assert (Hn : h5_getattr file0 1%positive "_h5_node" = Raise (AttributeError "_h5_node"))
    by (vm_compute; reflexivity).
  split; [discriminate |]. split; [reflexivity |]. split; [exact Hn |].
  rewrite Hn. discriminate.
Qed.

(** The special methods are a second gap: [len] of a group counts its
    members, [len] of a proxy of the group fails. *)
Example proxy_len_not_forwarded :
  builtin_len (RealNode 1%positive) file0 = Return (PyInt 2)
  /\ raises (builtin_len (Proxied (H5NodeFilterProxy.__init__ 1%positive)) file0)
       "TypeError".
Proof. split; vm_compute; reflexivity. Qed.

(** C7, amended.  Indexing the proxy, reading any attribute other than
    the two slots [attrs] and [_h5_node], and iterating the children
    through [items()] give what the wrapped node gives; [_h5_node]
    answers with the wrapped node. *)
Theorem proxy_forwards_other_operations
    (p : H5NodeFilterProxy.t) (f : h5_file) (name : string) (key : pyobj)
    (c : PyContainer.t) :
  name <> "attrs" -> name <> "_h5_node" ->
  H5NodeFilterProxy.__getitem__ p key f
    = h5_getitem f (H5NodeFilterProxy._h5_node p) key
  /\ H5NodeFilterProxy.__getattribute__ p name f
     = h5_getattr f (H5NodeFilterProxy._h5_node p) name
  /\ PyContainer.filter c (Proxied p) f
     = PyContainer.filter c (RealNode (H5NodeFilterProxy._h5_node p)) f
  /\ H5NodeFilterProxy.__getattribute__ p "_h5_node" f
     = Return (PyNode (H5NodeFilterProxy._h5_node p)).
Proof.
  intros Hattrs Hnode. repeat split.
  unfold H5NodeFilterProxy.__getattribute__.
  destruct (decide (name ∈ ["attrs"; "_h5_node"])) as [Hin | _]; [| done].
  repeat (apply elem_of_cons in Hin as [? | Hin]; [congruence |]).
  by apply elem_of_nil in Hin.
Qed.

Lemma proxy_forwards_other_operations_witness :
  H5NodeFilterProxy.__getattribute__ (H5NodeFilterProxy.__init__ 1%positive) "name" file0
  = h5_getattr file0 1%positive "name".
Proof.
  apply (proxy_forwards_other_operations (H5NodeFilterProxy.__init__ 1%positive) file0
           "name" (PyStr "data0") (PyContainer.__init__ PyNone PyNone PyNone PyNone));
    discriminate.
Defined.

(** ** PyContainer *)

Section Container.

Import PyContainer.

Implicit Types (c : t) (calls : list (string * pyobj * pyobj)).

Lemma append_list c l name item h5_attrs :
  _content c = PyList l ->
  _content (append c name item h5_attrs).1 = PyList (l ++ [item])%list
  /\ (append c name item h5_attrs).2 = Return tt.
Proof. intros Hc. unfold append. by rewrite Hc. Qed.

(** Appending to a container that holds a list: the items are added in
    the order of the calls, and every call returns. *)
Lemma appends_list calls : forall c l,
  _content c = PyList l ->
  _content (appends c calls).1 = PyList (l ++ ((fun x => x.1.2) <$> calls))%list
  /\ (appends c calls).2 = (fun _ => Return tt) <$> calls.
Proof.
  induction calls as [| [[name item] h5_attrs] calls IH]; intros c l Hc.
  - simpl. by rewrite app_nil_r.
  - destruct (append_list c l name item h5_attrs Hc) as [Hc1 Hr1].
    cbn [appends].
    destruct (append c name item h5_attrs) as [c1 r1]. simpl in Hc1, Hr1.
    destruct (IH c1 _ Hc1) as [Hc2 Hr2].
    destruct (appends c1 calls) as [c2 rs]. simpl in *.
    rewrite Hc2, Hr1, Hr2. by rewrite <- app_assoc.
Qed.

(** C6.  A container made with the default content, after the calls
    [append(name_1, x_1, a_1)], ..., [append(name_n, x_n, a_n)], holds
    exactly the list [[x_1, ..., x_n]]; every call returns; the names
    and the attributes of the children play no part. *)
Theorem append_accumulates_items (h5_attrs base_type object_type : pyobj) calls :
  _content (appends (__init__ h5_attrs base_type object_type PyNone) calls).1
  = PyList ((fun x => x.1.2) <$> calls)
  /\ (appends (__init__ h5_attrs base_type object_type PyNone) calls).2
     = (fun _ => Return tt) <$> calls.
Proof.
  apply (appends_list calls (__init__ h5_attrs base_type object_type PyNone) []).
  reflexivity.
Qed.

Example append_three :
  _content (appends (__init__ (PyAttributeManager 1%positive) (PyBytes []) PyNone PyNone)
              [("data0", PyInt 1, PyNone); ("data1", PyStr "b", PyInt 9);
               ("data0", PyInt 1, PyNone)]).1
  = PyList [PyInt 1; PyStr "b"; PyInt 1].
Proof. reflexivity. Qed.

(** C5.  For a group with the given members, the default [filter]
    yields one pair per member, with the member's name and the node it
    names, in the order of storage. *)
Theorem filter_yields_direct_children c (f : h5_file) (n : node_id)
    (node : h5_node) (members : list (string * node_id)) :
  f !! n = Some node ->
  h5_payload node = Group members ->
  filter c (RealNode n) f = Return (prod_map id PyNode <$> members)
  /\ (forall i name child,
        members !! i = Some (name, child) ->
        exists children, filter c (RealNode n) f = Return children
          /\ length children = length members
          /\ children !! i = Some (name, PyNode child)).
Proof.
  intros Hn Hg.
  assert (Hf : filter c (RealNode n) f = Return (prod_map id PyNode <$> members)).
  { unfold filter, getattr, h5_getattr, with_node. rewrite Hn. simpl.
    rewrite Hg. simpl. unfold h5_items, with_node. by rewrite Hn, Hg. }
  split; [exact Hf |].
  intros i name child Hi. eexists. split; [exact Hf |].
  split; [by rewrite length_fmap |].
  by rewrite list_lookup_fmap, Hi.
Qed.

Lemma filter_yields_direct_children_witness :
  filter (__init__ PyNone PyNone PyNone PyNone) (RealNode 1%positive) file0
  = Return [("data0", PyNode 2%positive); ("data1", PyNode 3%positive)].
Proof.
  apply (filter_yields_direct_children (__init__ PyNone PyNone PyNone PyNone)
           file0 1%positive
           (H5Node {[ "base_type" := PyBytes [x6c; x69; x73; x74] ]}
              (Group [("data0", 2%positive); ("data1", 3%positive)])
              {[ "name" := PyStr "/data" ]})
           [("data0", 2%positive); ("data1", 3%positive)]);
    reflexivity.
Defined.

(** [convert] of the base class changes nothing and raises. *)
Lemma convert_unchanged c :
  convert c = (c, Raise (NotImplementedError "convert method must be implemented")).
Proof. reflexivity. Qed.

(** C3, counterexample.  After [convert] has been called on a
    container, [append] is accepted and adds its item, and a second
    [convert] raises [NotImplementedError], not [ProtocolError]. *)
Lemma convert_then_append_accepted :
  let c0 := __init__ (PyAttributeManager 1%positive) (PyBytes [x6c; x69; x73; x74])
              (PyStr "list") PyNone in
  let c1 := (convert c0).1 in
  let c2 := (append c1 "data0" (PyInt 7) PyNone).1 in
  (append c1 "data0" (PyInt 7) PyNone).2 = Return tt
  /\ _content c2 = PyList [PyInt 7]
  /\ raises (convert c2).2 "NotImplementedError"
  /\ ~ raises (convert c2).2 "ProtocolError".
Proof. cbv zeta. repeat split. simpl. discriminate. Qed.

(** C3, amended.  The container keeps no record of [convert] having
    been called: [convert] of the base class raises
    [NotImplementedError] at every call and leaves the container as it
    was, so a later [append] does what it would have done before, and a
    later [convert] raises [NotImplementedError] again. *)
Theorem convert_keeps_no_state c :
  (convert c).1 = c
  /\ raises (convert c).2 "NotImplementedError"
  /\ raises (convert (convert c).1).2 "NotImplementedError"
  /\ forall name item h5_attrs,
       append (convert c).1 name item h5_attrs = append c name item h5_attrs.
Proof. repeat split. Qed.

End Container.

(** ** Registration of container classes *)

Section RegistryProps.

Variable compatible : container_class -> container_class -> bool.

Implicit Types (reg : gmap string container_class) (cls : container_class).

Lemma register_convertible tag cls reg reg' :
  all_convertible reg ->
  register compatible tag cls reg = Return reg' ->
  all_convertible reg'.
Proof.
  intros Hinv Hreg tag' cls' Hlook. unfold register in Hreg.
  destruct (def_convert cls) as [impl |] eqn:Hconv; [| discriminate].
  assert (Hins : reg' = <[tag := cls]> reg).
  { destruct (reg !! tag) as [old |]; [| congruence].
    destruct (compatible old cls); [congruence | discriminate]. }
  subst reg'. destruct (decide (tag = tag')) as [-> | Hne].
  - rewrite lookup_insert_eq in Hlook. injection Hlook as <-. by rewrite Hconv.
  - rewrite lookup_insert_ne in Hlook by done. by eapply Hinv.
Qed.

Lemma register_all_convertible entries :
  all_convertible (register_all compatible entries).
Proof.
  unfold register_all.
  assert (Hgen : forall reg, all_convertible reg ->
    all_convertible (fold_left (fun reg e =>
      match register compatible e.1 e.2 reg with
      | Return reg' => reg'
      | Raise _ => reg
      end) entries reg)).
  { induction entries as [| [tag cls] entries IH]; intros reg Hinv; [done |].
    cbn [fold_left]. apply IH. simpl.
    destruct (register compatible tag cls reg) as [reg' |] eqn:Hreg; [| done].
    by eapply register_convertible. }
  apply Hgen. intros tag cls Hlook. by rewrite lookup_empty in Hlook.
Qed.

(** C4.  A container class that does not define [convert] inherits the
    method of [PyContainer], which raises [NotImplementedError] when it
    is called.  Such a class is refused when it is registered, with a
    failure of the [NotImplementedError] class; whatever was registered
    at start, no tag resolves to such a class at load time: a tag
    resolves to a class that defines [convert], whose own method the
    load then calls, or to none. *)
Theorem unimplemented_convert_rejected_at_registration
    (entries : list (string * container_class)) tag cls :
  def_convert cls = None ->
  (forall c, method_convert cls c = PyContainer.convert c
             /\ raises (method_convert cls c).2 "NotImplementedError")
  /\ (forall reg, raises (register compatible tag cls reg) "NotImplementedError")
  /\ (forall tag', resolve_for_load (register_all compatible entries) tag'
                   <> Return cls)
  /\ (forall tag',
        match resolve_for_load (register_all compatible entries) tag' with
        | Return cls' =>
            exists impl, def_convert cls' = Some impl /\ method_convert cls' = impl
        | Raise e => exn_class e = "UnknownTypeError"
        end).
Proof.
  intros Hnone. pose proof (register_all_convertible entries) as Hinv.
  split; [| split; [| split]].
  - intros c. unfold method_convert. by rewrite Hnone.
  - intros reg. unfold register. by rewrite Hnone.
  - intros tag' Hres. unfold resolve_for_load in Hres.
    destruct (register_all compatible entries !! tag') as [cls' |] eqn:Hlook;
      [| discriminate].
    injection Hres as ->. destruct (Hinv _ _ Hlook) as [impl Himpl]. congruence.
  - intros tag'. unfold resolve_for_load.
    destruct (register_all compatible entries !! tag') as [cls' |] eqn:Hlook;
      [| done].
    destruct (Hinv _ _ Hlook) as [impl Himpl]. exists impl.
    split; [done |]. unfold method_convert. by rewrite Himpl.
Qed.

End RegistryProps.

Lemma unimplemented_convert_rejected_at_registration_witness :
  raises (register (fun _ _ => true) "list" UnfinishedContainer
            {[ "list" := ListLikeContainer ]}) "NotImplementedError".
Proof.
  destruct (unimplemented_convert_rejected_at_registration (fun _ _ => true)
              [("list", ListLikeContainer)] "list" UnfinishedContainer)
    as (_ & Hreg & _); [reflexivity |].
  apply Hreg.
Defined.

(** ** no_compression *)

Lemma dict_init_snoc pairs kv :
  dict_init (pairs ++ [kv]) = <[kv.1 := kv.2]> (dict_init pairs).
Proof. unfold dict_init. by rewrite fold_left_app. Qed.

(** Building a dict from the pairs that pass the test: the filtered keys
    are absent, the other keys are bound as in the dict of all pairs. *)
Lemma dict_init_filter pairs k :
  dict_init (filter (fun kv => kv.1 ∉ compression_keys) pairs) !! k
  = if decide (k ∈ compression_keys) then None else dict_init pairs !! k.
Proof.
  induction pairs as [| [k' v'] pairs IH] using rev_ind.
  - cbn. rewrite lookup_empty. by destruct (decide _).
  - rewrite filter_app, dict_init_snoc. cbn [fst snd].
    destruct (decide (k' ∈ compression_keys)) as [Hin | Hout].
    + rewrite filter_cons_False by (simpl; tauto).
      rewrite filter_nil, app_nil_r, IH.
      destruct (decide (k ∈ compression_keys)) as [| Hk]; [done |].
      rewrite lookup_insert_ne; [done | congruence].
    + rewrite filter_cons_True by done.
      rewrite filter_nil, dict_init_snoc. cbn [fst snd].
      destruct (decide (k' = k)) as [-> | Hne].
      * rewrite !lookup_insert_eq. by destruct (decide _).
      * by rewrite !lookup_insert_ne.
Qed.

Lemma dict_init_reverse pairs :
  dict_init pairs = list_to_map (reverse pairs).
Proof.
  induction pairs as [| kv pairs IH] using rev_ind; [done |].
  by rewrite dict_init_snoc, reverse_snoc, IH.
Qed.

(** The items of a dict build the same dict again. *)
Lemma dict_init_items (d : gmap pykey pyobj) : dict_init (map_to_list d) = d.
Proof.
  rewrite dict_init_reverse.
  rewrite <- (list_to_map_to_list d) at 2.
  apply list_to_map_proper.
  - rewrite fmap_reverse, reverse_Permutation. apply NoDup_fst_map_to_list.
  - apply reverse_Permutation.
Qed.

(** C9.  A pair is in [no_compression(mapping)] exactly when its key is
    none of the six compression and filter keywords and the pair is in
    the mapping passed (for an iterable of pairs: in the dict the pairs
    build); the value is the one the mapping holds. *)
Theorem no_compression_keeps_other_pairs (mapping : mapping_arg)
    (kwargs : gmap string pyobj) (k : pykey) (v : pyobj) :
  no_compression mapping kwargs !! k = Some v
  <-> (k ∉ compression_keys) /\ arg_dict mapping !! k = Some v.
Proof.
  unfold no_compression. rewrite dict_init_filter.
  assert (Hd : dict_init (arg_items mapping) = arg_dict mapping).
  { destruct mapping as [d | pairs]; [apply dict_init_items | done]. }
  rewrite Hd. destruct (decide (k ∈ compression_keys)) as [Hin | Hout].
  - split; [discriminate | intros [Hout _]; contradiction].
  - split; [intros Hk; split; assumption | intros [_ Hk]; exact Hk].
Qed.

(** ** not_dumpable *)

(** C10.  Whatever its arguments, [not_dumpable] raises [RuntimeError];
    it returns nothing and leaves the file without a new node. *)
Theorem not_dumpable_always_raises (py_obj : pyobj) (h_group : node_id)
    (name : string) (kwargs : gmap string pyobj) (f : h5_file) :
  raises (not_dumpable py_obj h_group name kwargs f).2 "RuntimeError"
  /\ ~ returned (not_dumpable py_obj h_group name kwargs f).2
  /\ (not_dumpable py_obj h_group name kwargs f).1 = f.
Proof. repeat split. simpl. tauto. Qed.

Example no_compression_dict :
  no_compression
    (ArgDict {[ KStr "compression" := PyStr "gzip"; KStr "dtype" := PyStr "f8";
                KStr "chunks" := PyBool true; KInt 3 := PyNone ]}) ∅
  = {[ KStr "dtype" := PyStr "f8"; KInt 3 := PyNone ]}.
Proof. vm_compute. reflexivity. Qed.

(** Of two pairs with one key, the dict keeps the later one. *)
Example no_compression_repeated_key :
  no_compression
    (ArgIterable [(KStr "dtype", PyStr "f4"); (KStr "shuffle", PyBool true);
                  (KStr "dtype", PyStr "f8")]) ∅
  = {[ KStr "dtype" := PyStr "f8" ]}.
Proof. vm_compute. reflexivity. Qed.

(** ** The string attribute readers *)

(** With the older h5py, the four readers are bound, and they decode
    what the attribute holds as bytes. *)
Lemma legacy_readers_decode :
  (forall name,
     name ∈ ["load_str_attr"; "load_str_attr_ascii"; "load_str_list_attr";
             "load_str_list_attr_ascii"] ->
     is_Some (module_globals 2 !! name))
  /\ call_helper 2 "load_str_attr" file1 (PyAttributeManager 1%positive) "title"
     = Return (PyStr (String "195" (String "169" "")))
  /\ call_helper 2 "load_str_attr_ascii" file1 (PyAttributeManager 1%positive) "type"
     = Return (PyStr "list")
  /\ raises (call_helper 2 "load_str_attr_ascii" file1 (PyAttributeManager 1%positive) "title")
       "UnicodeDecodeError"
  /\ call_helper 2 "load_str_list_attr" file1 (PyAttributeManager 1%positive) "keys"
     = Return (PyList [PyStr "a"; PyStr "bc"])
  /\ call_helper 2 "load_str_list_attr_ascii" file1 (PyAttributeManager 1%positive) "keys"
     = Return (PyList [PyStr "a"; PyStr "bc"]).
Proof.
  split.
  - intros name Hin.
    repeat (apply elem_of_cons in Hin as [-> | Hin]; [vm_compute; eauto |]).
    by apply elem_of_nil in Hin.
  - repeat split; vm_compute; reflexivity.
Qed.

(** C8, at h5py 3.  The branch for h5py 3 and later binds
    [load_str_list_attr] twice and [load_str_attr] never: of the four
    readers three are bound, and a call of [load_str_attr] fails on the
    missing name instead of returning the decoded text. *)
Theorem load_str_attr_unbound_with_h5py_3 :
  module_globals 3 !! "load_str_attr" = None
  /\ is_Some (module_globals 3 !! "load_str_attr_ascii")
  /\ is_Some (module_globals 3 !! "load_str_list_attr")
  /\ is_Some (module_globals 3 !! "load_str_list_attr_ascii")
  /\ raises (call_helper 3 "load_str_attr" file1 (PyAttributeManager 1%positive) "title")
       "AttributeError"
  /\ is_Some (module_globals 2 !! "load_str_attr").
Proof. repeat split; vm_compute; eauto. Qed.

(** * Further properties *)

(** ** PyContainer: content given by the caller, runs of calls *)

Section ContainerRuns.

Import PyContainer.

Implicit Types (c : t) (calls : list (string * pyobj * pyobj)).

(** X1.  A container made with a list as [_content] keeps that list and
    extends it: after the calls the content is the given list followed
    by the items in the order of the calls, and every call returns. *)
Theorem append_extends_given_list (h5_attrs base_type object_type : pyobj)
    (given : list pyobj) calls :
  _content (appends (__init__ h5_attrs base_type object_type (PyList given)) calls).1
  = PyList (given ++ ((fun x => x.1.2) <$> calls))%list
  /\ (appends (__init__ h5_attrs base_type object_type (PyList given)) calls).2
     = (fun _ => Return tt) <$> calls.
Proof.
  apply (appends_list calls
           (__init__ h5_attrs base_type object_type (PyList given)) given).
  reflexivity.
Qed.





Lemma append_keeps_fields c name item h5_attrs :
  base_type (append c name item h5_attrs).1 = base_type c
  /\ object_type (append c name item h5_attrs).1 = object_type c
  /\ _h5_attrs (append c name item h5_attrs).1 = _h5_attrs c.
Proof. unfold append. by destruct (py_append (_content c) item). Qed.

(** X4.  The base type, the object type and the attributes a container
    was made with are never changed by [append] or [convert], whatever
    the items and whether the calls succeed. *)
Theorem container_fields_are_fixed c calls :
  base_type (appends c calls).1 = base_type c
  /\ object_type (appends c calls).1 = object_type c
  /\ _h5_attrs (appends c calls).1 = _h5_attrs c
  /\ (convert (appends c calls).1).1 = (appends c calls).1.
Proof.
  revert c. induction calls as [| [[name item] h5_attrs] calls IH]; intros c.
  - done.
  - cbn [appends].
    destruct (append_keeps_fields c name item h5_attrs) as (Hb & Ho & Ha).
    destruct (append c name item h5_attrs) as [c1 r1].
    destruct (IH c1) as (IHb & IHo & IHa & IHc).
    destruct (appends c1 calls) as [c2 rs]. simpl in *.
    rewrite IHb, IHo, IHa. by rewrite Hb, Ho, Ha.
Qed.

End ContainerRuns.

(** ** H5NodeFilterProxy: keys, deletions, later changes of the file *)

Section ProxyMore.

Import H5NodeFilterProxy.

Implicit Types (f : h5_file) (p : t) (uses : list use) (d : gmap string pyobj).

(** A read through an overlay of the shape made by [__init__] depends
    on the entry of the key in the dict and on the file only. *)
Lemma attrs_getitem_entry p1 p2 n d1 d2 key f :
  wraps p1 n d1 -> wraps p2 n d2 -> d1 !! key = d2 !! key ->
  attrs_getitem p1 key f = attrs_getitem p2 key f.
Proof.
  intros [_ Hm1] [_ Hm2] Hd. unfold attrs_getitem, ChainMap___getitem__.
  rewrite Hm1, Hm2. cbn [lookup_maps mapping___getitem__]. by rewrite Hd.
Qed.

(** X5.  Writing or deleting one key through the overlay changes no
    read of another key. *)
Theorem overlay_keys_are_independent f n uses key key' value :
  key <> key' ->
  let st := run uses (f, __init__ n) in
  attrs_getitem (step (WriteAttr key value) st).1.2 key' f
  = attrs_getitem st.2 key' f
  /\ attrs_getitem (step (DelAttr key) st).1.2 key' f
     = attrs_getitem st.2 key' f.
Proof.
  intros Hne st. subst st.
  destruct (run_wraps uses f (__init__ n) n ∅ (init_wraps n))
    as (Hf & d & Hw & _).
  destruct (run uses (f, __init__ n)) as [f0 p]. simpl in Hf, Hw |- *. subst f0.
  split.
  - destruct (step_wraps (WriteAttr key value) f p n d Hw) as (_ & d' & Hw' & Hd').
    apply (attrs_getitem_entry _ _ n d' d key' f Hw' Hw).
    rewrite Hd'. simpl. by destruct (decide (key = key')).
  - destruct (step_wraps (DelAttr key) f p n d Hw) as (_ & d' & Hw' & Hd').
    apply (attrs_getitem_entry _ _ n d' d key' f Hw' Hw).
    rewrite Hd'. simpl. by destruct (decide (key = key')).
Qed.

Lemma overlay_keys_are_independent_witness :
  attrs_getitem
    (step (WriteAttr "shape" (PyInt 2)) (run [] (file0, __init__ 1%positive))).1.2
    "base_type" file0
  = attrs_getitem (run [] (file0, __init__ 1%positive)).2 "base_type" file0.
Proof.
  apply (overlay_keys_are_independent file0 1%positive [] "shape" "base_type"
           (PyInt 2)).
  discriminate.
Defined.

(** X6.  Deleting an override brings the attribute of the node back:
    after [proxy.attrs[key] = value] and [del proxy.attrs[key]], in any
    session, the delete has returned and a read of the key gives what
    the node gives. *)
Theorem overlay_delete_restores_node_value f n uses key value :
  let st := run (uses ++ [WriteAttr key value]) (f, __init__ n) in
  (step (DelAttr key) st).2 = Return PyNone
  /\ same_outcome (attrs_getitem (step (DelAttr key) st).1.2 key f)
       (AttributeManager___getitem__ f n key).
Proof.
  intros st. subst st.
  destruct (run_wraps (uses ++ [WriteAttr key value]) f (__init__ n) n ∅
              (init_wraps n)) as (Hf & d & Hw & Hd).
  specialize (Hd key). rewrite fold_left_app in Hd. simpl in Hd.
  destruct (decide (key = key)) as [_ | Hne]; [| done].
  destruct (run (uses ++ [WriteAttr key value]) (f, __init__ n)) as [f0 p].
  simpl in Hf, Hw |- *. subst f0.
  destruct (step_wraps (DelAttr key) f p n d Hw) as (_ & d' & Hw' & Hd').
  pose proof (attrs_getitem_cases _ n d' key f Hw') as Hread.
  rewrite Hd' in Hread. simpl in Hread.
  destruct (decide (key = key)) as [_ | Hne]; [| done].
  split; [| exact Hread].
  destruct Hw as [Hn Hm].
  unfold attrs_delitem, ChainMap___delitem__. rewrite Hm. simpl. by rewrite Hd.
Qed.

(** X7.  The overlay cannot delete what it does not override: when the
    key has no override, [del proxy.attrs[key]] raises [KeyError] and
    changes neither the proxy nor the file, also when the node has the
    attribute. *)
Theorem overlay_delete_without_override_fails f n uses key :
  overridden uses key = None ->
  let st := run uses (f, __init__ n) in
  (step (DelAttr key) st).1 = st
  /\ raises (step (DelAttr key) st).2 "KeyError".
Proof.
  intros Hov st. subst st.
  destruct (run_wraps uses f (__init__ n) n ∅ (init_wraps n))
    as (Hf & d & Hw & Hd).
  specialize (Hd key). rewrite lookup_empty in Hd. unfold overridden in Hov.
  rewrite Hov in Hd.
  destruct (run uses (f, __init__ n)) as [f0 p]. simpl in Hf, Hw |- *. subst f0.
  destruct Hw as [Hn Hm].
  unfold attrs_delitem, ChainMap___delitem__. rewrite Hm. simpl. rewrite Hd. simpl.
  destruct p as [pn [pm]]. simpl in *. subst. split; [reflexivity |].
  by destruct (decide (exn_class (KeyError key) = "KeyError")).
Qed.

Lemma overlay_delete_without_override_fails_witness :
  raises (step (DelAttr "base_type")
            (run [WriteAttr "shape" (PyInt 2)] (file0, __init__ 1%positive))).2
    "KeyError".
Proof.
  apply (overlay_delete_without_override_fails file0 1%positive
           [WriteAttr "shape" (PyInt 2)] "base_type").
  reflexivity.
Defined.

(** X8.  The overlay holds no copy of the attributes of the node.  A
    proxy used on one file and then read on a later state [f'] of the
    file gives, for a key without override, what the node holds in [f'],
    and for an overridden key the override, whatever the node holds. *)
Theorem overlay_reads_the_current_file f f' n uses key :
  same_outcome (attrs_getitem (run uses (f, __init__ n)).2 key f')
    (match overridden uses key with
     | Some v => Return v
     | None => AttributeManager___getitem__ f' n key
     end).
Proof.
  destruct (run_wraps uses f (__init__ n) n ∅ (init_wraps n))
    as (_ & d & Hw & Hd).
  pose proof (attrs_getitem_cases _ n d key f' Hw) as Hread.
  rewrite Hd, lookup_empty in Hread. exact Hread.
Qed.

(** X9.  Two proxies of one node do not see each other: what one proxy
    reads is the same before and after any session on another proxy of
    the node. *)
Theorem proxies_of_one_node_are_isolated f n uses1 uses2 key :
  let st2 := run uses2 (f, __init__ n) in
  let st1 := run uses1 (st2.1, __init__ n) in
  attrs_getitem st2.2 key st1.1 = attrs_getitem st2.2 key st2.1
  /\ (run uses2 (st1.1, __init__ n)).2 = st2.2.
Proof.
  intros st2 st1. subst st1 st2.
  destruct (run_wraps uses2 f (__init__ n) n ∅ (init_wraps n)) as (Hf2 & _).
  rewrite Hf2.
  destruct (run_wraps uses1 f (__init__ n) n ∅ (init_wraps n)) as (Hf1 & _).
  by rewrite Hf1.
Qed.

End ProxyMore.

(** ** H5NodeFilterProxy: the overlay and what is forwarded *)

Section ProxyForwarding.

Import H5NodeFilterProxy.

Implicit Types (f : h5_file) (p : t) (uses : list use).

(** X10.  Nothing written to the overlay changes what the proxy hands
    on: after any session, indexing, the children yielded by the default
    [filter] and every attribute other than the two slots are those of
    the wrapped node, and [_h5_node] is still that node. *)
Theorem overlay_leaves_forwarding_alone f n uses (name : string) (key : pyobj)
    (c : PyContainer.t) :
  name <> "attrs" -> name <> "_h5_node" ->
  let p := (run uses (f, __init__ n)).2 in
  __getitem__ p key f = h5_getitem f n key
  /\ __getattribute__ p name f = h5_getattr f n name
  /\ PyContainer.filter c (Proxied p) f = PyContainer.filter c (RealNode n) f
  /\ __getattribute__ p "_h5_node" f = Return (PyNode n).
Proof.
  intros Hattrs Hnode p. subst p.
  destruct (run_wraps uses f (__init__ n) n ∅ (init_wraps n))
    as (_ & d & [Hn _] & _).
  destruct (run uses (f, __init__ n)) as [f0 p]. simpl in Hn |- *.
  unfold __getitem__, PyContainer.filter, getattr, __getattribute__.
  rewrite Hn.
  destruct (decide (name ∈ ["attrs"; "_h5_node"])) as [Hin | _].
  { repeat (apply elem_of_cons in Hin as [? | Hin]; [congruence |]).
    by apply elem_of_nil in Hin. }
  repeat split. unfold object___getattribute__. simpl. by rewrite Hn.
Qed.

Lemma overlay_leaves_forwarding_alone_witness :
  PyContainer.filter (PyContainer.__init__ PyNone PyNone PyNone PyNone)
    (Proxied (run [WriteAttr "base_type" (PyInt 0)] (file0, __init__ 1%positive)).2)
    file0
  = PyContainer.filter (PyContainer.__init__ PyNone PyNone PyNone PyNone)
      (RealNode 1%positive) file0.
Proof.
  apply (overlay_leaves_forwarding_alone file0 1%positive
           [WriteAttr "base_type" (PyInt 0)] "name" (PyStr "data0")
           (PyContainer.__init__ PyNone PyNone PyNone PyNone));
    discriminate.
Defined.

(** X11.  [proxy.attrs] is the overlay itself, and the readers of string
    attributes go through it: the mapping that [__getattribute__] returns
    for [attrs] answers every key as [proxy.attrs[key]] does, so
    [load_str_attr] and [load_str_attr_ascii] decode the override of a
    key when there is one. *)
Theorem readers_go_through_the_overlay f n uses key :
  let p := (run uses (f, __init__ n)).2 in
  exists attrs_obj,
    __getattribute__ p "attrs" f = Return attrs_obj
    /\ attrs_lookup f attrs_obj key = attrs_getitem p key f
    /\ load_str_attr f attrs_obj key
       = (v <- attrs_getitem p key f ;; decode v "utf8")
    /\ load_str_attr_ascii f attrs_obj key
       = (v <- attrs_getitem p key f ;; decode v "ascii")
    /\ forall b, overridden uses key = Some (PyBytes b) ->
         load_str_attr f attrs_obj key = decode (PyBytes b) "utf8"
         /\ load_str_attr_ascii f attrs_obj key = decode (PyBytes b) "ascii".
Proof.
  intros p. subst p.
  destruct (run_wraps uses f (__init__ n) n ∅ (init_wraps n))
    as (_ & d & Hw & Hd).
  pose proof (attrs_getitem_cases _ n d key f Hw) as Hread.
  rewrite Hd, lookup_empty in Hread. fold (overridden uses key) in Hread.
  destruct (run uses (f, __init__ n)) as [f0 p]. simpl in Hw, Hread |- *.
  exists (PyChainMap (maps (attrs p))).
  assert (Hlook : attrs_lookup f (PyChainMap (maps (attrs p))) key
                  = attrs_getitem p key f) by reflexivity.
  split; [reflexivity |]. split; [exact Hlook |].
  unfold load_str_attr, load_str_attr_ascii. rewrite Hlook.
  split; [reflexivity |]. split; [reflexivity |].
  intros b Hov. rewrite Hov in Hread.
  destruct (attrs_getitem p key f) as [v | e]; [| done].
  simpl in Hread. by subst v.
Qed.

Lemma readers_go_through_the_overlay_witness :
  exists attrs_obj,
    __getattribute__
      (run [WriteAttr "type" (PyBytes [x74; x75; x70])] (file1, __init__ 1%positive)).2
      "attrs" file1 = Return attrs_obj
    /\ load_str_attr file1 attrs_obj "type" = Return (PyStr "tup").
Proof.
  destruct (readers_go_through_the_overlay file1 1%positive
              [WriteAttr "type" (PyBytes [x74; x75; x70])] "type")
    as (attrs_obj & Hget & _ & _ & _ & Hov).
  exists attrs_obj. split; [exact Hget |].
  destruct (Hov [x74; x75; x70]) as [Hutf _]; [reflexivity |].
  rewrite Hutf. reflexivity.
Defined.

End ProxyForwarding.

(** ** The readers of string attributes *)

Lemma ascii_is_utf8 (b : list byte) :
  forallb (byte_in 0x00 0x7F) b = true -> utf8_valid b = true.
Proof.
  induction b as [| b0 b IH]; [done |].
  intros Hall. apply andb_prop in Hall as [H0 Hrest].
  cbn [utf8_valid]. rewrite H0. by apply IH.
Qed.

Lemma decode_ascii_utf8 (value s : pyobj) :
  decode value "ascii" = Return s -> decode value "utf8" = Return s.
Proof.
  destruct value as [| | | b | | | | | | |]; try discriminate.
  unfold decode.
  destruct (decide ("ascii" = "ascii")) as [_ | Hne]; [| done].
  destruct (decide ("utf8" = "ascii")) as [Heq | _]; [discriminate |].
  destruct (decide ("utf8" = "utf8")) as [_ | Hne]; [| done].
  destruct (forallb (byte_in 0 127) b) eqn:Hascii; [| discriminate].
  intros Hs. by rewrite (ascii_is_utf8 b Hascii).
Qed.

Lemma decode_each_ascii_utf8 (values l : list pyobj) :
  decode_each values "ascii" = Return l -> decode_each values "utf8" = Return l.
Proof.
  revert l. induction values as [| value values IH]; intros l; [done |].
  cbn [decode_each].
  destruct (decode value "ascii") as [s |] eqn:Hs; [| discriminate].
  rewrite (decode_ascii_utf8 value s Hs). cbn [bind].
  destruct (decode_each values "ascii") as [ss |]; [| discriminate].
  rewrite (IH ss eq_refl). done.
Qed.

(** X12.  Whatever [load_str_attr_ascii] returns, [load_str_attr]
    returns too for the same attribute, and likewise for the two list
    readers: text that decodes as ASCII decodes as UTF-8 to the same
    text. *)
Theorem ascii_readers_agree_with_utf8 (f : h5_file) (attrs : pyobj)
    (name : string) (out : pyobj) :
  (load_str_attr_ascii f attrs name = Return out ->
   load_str_attr f attrs name = Return out)
  /\ (load_str_list_attr_ascii f attrs name = Return out ->
      load_str_list_attr f attrs name = Return out).
Proof.
  unfold load_str_attr_ascii, load_str_attr, load_str_list_attr_ascii,
    load_str_list_attr.
  destruct (attrs_lookup f attrs name) as [v | e]; [| split; discriminate].
  cbn [bind]. split; [apply decode_ascii_utf8 |].
  destruct (py_iter v) as [values | e]; [| discriminate]. cbn [bind].
  destruct (decode_each values "ascii") as [l |] eqn:Hl; [| discriminate].
  by rewrite (decode_each_ascii_utf8 values l Hl).
Qed.

Lemma ascii_readers_agree_with_utf8_witness :
  load_str_attr file1 (PyAttributeManager 1%positive) "type" = Return (PyStr "list").
Proof.
  apply (ascii_readers_agree_with_utf8 file1 (PyAttributeManager 1%positive)
           "type" (PyStr "list")).
  reflexivity.
Defined.

(** A list decodes element by element, or not at all. *)
Lemma decode_each_Forall2 (values l : list pyobj) (encoding : string) :
  decode_each values encoding = Return l
  <-> Forall2 (fun value s => decode value encoding = Return s) values l.
Proof.
  revert l. induction values as [| value values IH]; intros l.
  - simpl. split.
    + intros [= <-]. constructor.
    + intros Hall. by inversion Hall.
  - cbn [decode_each]. split.
    + destruct (decode value encoding) as [s |] eqn:Hs; [| discriminate].
      cbn [bind].
      destruct (decode_each values encoding) as [ss |] eqn:Hss; [| discriminate].
      intros [= <-]. constructor; [done |]. by apply IH.
    + intros Hall. inversion Hall as [| ? s ? ss Hs Hssall]; subst.
      rewrite Hs. cbn [bind]. apply IH in Hssall. by rewrite Hssall.
Qed.

(** X13.  For an attribute that holds a list, [load_str_list_attr]
    returns a list exactly when every element decodes as UTF-8, and
    then the result has one text per element, in the same order, each
    the decoding of its element; the same for the ASCII reader.  One
    element that does not decode makes the whole read fail. *)
Theorem list_readers_decode_elementwise (f : h5_file) (attrs : pyobj)
    (name : string) (values l : list pyobj) :
  attrs_lookup f attrs name = Return (PyList values) ->
  (load_str_list_attr f attrs name = Return (PyList l)
   <-> Forall2 (fun value s => decode value "utf8" = Return s) values l)
  /\ (load_str_list_attr_ascii f attrs name = Return (PyList l)
      <-> Forall2 (fun value s => decode value "ascii" = Return s) values l)
  /\ (load_str_list_attr f attrs name = Return (PyList l) ->
      length l = length values).
Proof.
  intros Hlook.
  assert (Hgen : forall encoding,
    (v <- attrs_lookup f attrs name ;; values <- py_iter v ;;
     l <- decode_each values encoding ;; Return (PyList l)) = Return (PyList l)
    <-> Forall2 (fun value s => decode value encoding = Return s) values l).
  { intros encoding. rewrite Hlook. cbn [bind py_iter].
    rewrite <- decode_each_Forall2.
    destruct (decode_each values encoding) as [l' |]; cbn [bind].
    - split; [by intros [= ->] | by intros [= ->]].
    - split; discriminate. }
  split; [apply Hgen |]. split; [apply Hgen |].
  intros Hret. apply Hgen in Hret. symmetry. by eapply Forall2_length.
Qed.

Lemma list_readers_decode_elementwise_witness :
  load_str_list_attr file1 (PyAttributeManager 1%positive) "keys"
  = Return (PyList [PyStr "a"; PyStr "bc"]).
Proof.
  apply (list_readers_decode_elementwise file1 (PyAttributeManager 1%positive)
           "keys" [PyBytes [x61]; PyBytes [x62; x63]] [PyStr "a"; PyStr "bc"]).
  - reflexivity.
  - repeat constructor.
Defined.

Lemma module_globals_h5py_3 (h5_major : Z) (name : string) :
  (3 <= h5_major)%Z ->
  name ∈ ["load_str_attr_ascii"; "load_str_list_attr"; "load_str_list_attr_ascii"] ->
  module_globals h5_major !! name = Some h5_AttributeManager_get.
Proof.
  intros Hge Hin. unfold module_globals.
  destruct (3 <=? h5_major)%Z eqn:Hleb; [| apply Z.leb_gt in Hleb; lia].
  unfold assign.
  repeat (apply elem_of_cons in Hin as [-> | Hin];
          [by repeat (rewrite lookup_insert_eq || rewrite lookup_insert_ne by done) |]).
  by apply elem_of_nil in Hin.
Qed.

(** X14.  With h5py 3 or later the three readers that are bound decode
    nothing and never fail on a missing attribute: each returns the value
    the node holds as it is, and [None] when the node has no attribute of
    that name. *)
Theorem h5py_3_readers_return_stored_value (h5_major : Z) (name key : string)
    (f : h5_file) (n : node_id) (node : h5_node) :
  (3 <= h5_major)%Z ->
  name ∈ ["load_str_attr_ascii"; "load_str_list_attr"; "load_str_list_attr_ascii"] ->
  f !! n = Some node ->
  call_helper h5_major name f (PyAttributeManager n) key
  = Return (default PyNone (h5_attrs node !! key)).
Proof.
  intros Hge Hin Hn.
  pose proof (module_globals_h5py_3 h5_major name Hge Hin) as Hg.
  unfold call_helper, reader in *. rewrite Hg.
  unfold h5_AttributeManager_get, attrs_lookup, AttributeManager___getitem__,
    with_node.
  rewrite Hn. by destruct (h5_attrs node !! key).
Qed.

Lemma h5py_3_readers_return_stored_value_witness :
  call_helper 3 "load_str_attr_ascii" file1 (PyAttributeManager 1%positive) "type"
  = Return (PyBytes [x6c; x69; x73; x74]).
Proof.
  rewrite (h5py_3_readers_return_stored_value 3 "load_str_attr_ascii" "type" file1
             1%positive
             (H5Node {[ "type" := PyBytes [x6c; x69; x73; x74];
                        "title" := PyBytes [xc3; xa9];
                        "keys" := PyList [PyBytes [x61]; PyBytes [x62; x63]] ]}
                (Group []) ∅)).
  - reflexivity.
  - lia.
  - apply elem_of_cons. by left.
  - reflexivity.
Defined.

(** X15.  The four functions of the older branch index the attributes
    directly: for an attribute the node does not have, each raises
    [KeyError]. *)
Theorem legacy_readers_raise_on_missing_attribute (f : h5_file) (n : node_id)
    (node : h5_node) (key : string) :
  f !! n = Some node ->
  h5_attrs node !! key = None ->
  raises (load_str_attr f (PyAttributeManager n) key) "KeyError"
  /\ raises (load_str_attr_ascii f (PyAttributeManager n) key) "KeyError"
  /\ raises (load_str_list_attr f (PyAttributeManager n) key) "KeyError"
  /\ raises (load_str_list_attr_ascii f (PyAttributeManager n) key) "KeyError".
Proof.
  intros Hn Hkey.
  unfold load_str_attr, load_str_attr_ascii, load_str_list_attr,
    load_str_list_attr_ascii, attrs_lookup, AttributeManager___getitem__,
    with_node.
  rewrite Hn, Hkey. repeat split.
Qed.

Lemma legacy_readers_raise_on_missing_attribute_witness :
  raises (load_str_attr file1 (PyAttributeManager 1%positive) "base_type") "KeyError".
Proof.
  apply (legacy_readers_raise_on_missing_attribute file1 1%positive
           (H5Node {[ "type" := PyBytes [x6c; x69; x73; x74];
                      "title" := PyBytes [xc3; xa9];
                      "keys" := PyList [PyBytes [x61]; PyBytes [x62; x63]] ]}
              (Group []) ∅) "base_type");
    reflexivity.
Defined.



(** X17.  The list readers of the older branch, given an attribute that
    holds one byte string, iterate its bytes: they return the empty list
    for the empty byte string and raise [AttributeError] for any other,
    since a byte is a number and has no [decode]. *)
Theorem legacy_list_readers_on_scalar_bytes (f : h5_file) (attrs : pyobj)
    (name : string) (b : list byte) :
  attrs_lookup f attrs name = Return (PyBytes b) ->
  match b with
  | [] => load_str_list_attr f attrs name = Return (PyList [])
          /\ load_str_list_attr_ascii f attrs name = Return (PyList [])
  | _ :: _ => raises (load_str_list_attr f attrs name) "AttributeError"
              /\ raises (load_str_list_attr_ascii f attrs name) "AttributeError"
  end.
Proof.
  intros Hlook. unfold load_str_list_attr, load_str_list_attr_ascii.
  rewrite Hlook. destruct b; split; reflexivity.
Qed.

Lemma legacy_list_readers_on_scalar_bytes_witness :
  raises (load_str_list_attr file1 (PyAttributeManager 1%positive) "type")
    "AttributeError".
Proof.
  apply (legacy_list_readers_on_scalar_bytes file1 (PyAttributeManager 1%positive)
           "type" [x6c; x69; x73; x74]).
  reflexivity.
Defined.

(** ** no_compression: composition and edge cases *)

Lemma no_compression_lookup (mapping : mapping_arg) (kwargs : gmap string pyobj)
    (k : pykey) :
  no_compression mapping kwargs !! k
  = if decide (k ∈ compression_keys) then None else arg_dict mapping !! k.
Proof.
  unfold no_compression. rewrite dict_init_filter.
  destruct mapping as [d | pairs]; simpl; [by rewrite dict_init_items | done].
Qed.

(** X18.  Filtering twice is filtering once: [no_compression] applied to
    its own result gives that result again. *)
Theorem no_compression_idempotent (mapping : mapping_arg)
    (kwargs kwargs' : gmap string pyobj) :
  no_compression (ArgDict (no_compression mapping kwargs)) kwargs'
  = no_compression mapping kwargs.
Proof.
  apply map_eq. intros k. rewrite !no_compression_lookup. simpl.
  rewrite no_compression_lookup. by destruct (decide (k ∈ compression_keys)).
Qed.

(** X19.  A dict that has none of the six keywords comes back equal. *)
Theorem no_compression_keeps_plain_dict (d : gmap pykey pyobj)
    (kwargs : gmap string pyobj) :
  (forall k, k ∈ compression_keys -> d !! k = None) ->
  no_compression (ArgDict d) kwargs = d.
Proof.
  intros Hplain. apply map_eq. intros k. rewrite no_compression_lookup. simpl.
  destruct (decide (k ∈ compression_keys)) as [Hin | _]; [| done].
  by rewrite Hplain.
Qed.

Lemma no_compression_keeps_plain_dict_witness :
  no_compression (ArgDict {[ KStr "dtype" := PyStr "f8" ]}) ∅
  = {[ KStr "dtype" := PyStr "f8" ]}.
Proof.
  apply (no_compression_keeps_plain_dict {[ KStr "dtype" := PyStr "f8" ]} ∅).
  intros k Hin.
  repeat (apply elem_of_cons in Hin as [-> | Hin]; [reflexivity |]).
  by apply elem_of_nil in Hin.
Defined.

(** X20.  The keys of the result are the keys of the mapping passed
    without the six keywords, and for a dict the result is a part of the
    dict: nothing is added and no value is changed. *)
Theorem no_compression_keys (mapping : mapping_arg) (kwargs : gmap string pyobj) :
  dom (no_compression mapping kwargs)
  = dom (arg_dict mapping) ∖ list_to_set compression_keys
  /\ no_compression mapping kwargs ⊆ arg_dict mapping.
Proof.
  split.
  - apply set_eq. intros k.
    rewrite elem_of_difference, !elem_of_dom, elem_of_list_to_set.
    rewrite no_compression_lookup.
    destruct (decide (k ∈ compression_keys)) as [Hin | Hout].
    + split; [by intros [v Hv] | by intros [_ Hnot]].
    + split; [by intros Hv | by intros [Hv _]].
  - apply map_subseteq_spec. intros k v. rewrite no_compression_lookup.
    by destruct (decide (k ∈ compression_keys)).
Qed.

(** X21.  For an iterable of pairs the last pair of a key decides: when
    the last pair is [(k, v)] and [k] is none of the six keywords, the
    result binds [k] to [v], whatever earlier pairs said about [k]. *)
Theorem no_compression_last_pair_wins (pairs : list (pykey * pyobj))
    (k : pykey) (v : pyobj) (kwargs : gmap string pyobj) :
  k ∉ compression_keys ->
  no_compression (ArgIterable (pairs ++ [(k, v)])) kwargs !! k = Some v.
Proof.
  intros Hout. rewrite no_compression_lookup.
  destruct (decide (k ∈ compression_keys)) as [Hin | _]; [done |].
  simpl. rewrite dict_init_snoc. apply lookup_insert_eq.
Qed.

Lemma no_compression_last_pair_wins_witness :
  no_compression
    (ArgIterable ([(KStr "dtype", PyStr "f4"); (KStr "shuffle", PyBool true)]
                  ++ [(KStr "dtype", PyStr "f8")])) ∅ !! KStr "dtype"
  = Some (PyStr "f8").
Proof.
  apply (no_compression_last_pair_wins
           [(KStr "dtype", PyStr "f4"); (KStr "shuffle", PyBool true)]
           (KStr "dtype") (PyStr "f8") ∅).
  intros Hin.
  repeat (apply elem_of_cons in Hin as [Heq | Hin]; [discriminate |]).
  by apply elem_of_nil in Hin.
Defined.

(** X22.  Passing the pairs or passing the dict they build gives the
    same result: dropping the keywords before the dict is built, as the
    code does, loses nothing that dropping them afterwards would keep. *)
Theorem no_compression_pairs_as_dict (pairs : list (pykey * pyobj))
    (kwargs : gmap string pyobj) :
  no_compression (ArgIterable pairs) kwargs
  = no_compression (ArgDict (dict_init pairs)) kwargs.
Proof. apply map_eq. intros k. by rewrite !no_compression_lookup. Qed.

(** X23.  A mapping that holds nothing but compression and filter
    keywords gives the empty dict; so does the empty mapping. *)
Theorem no_compression_of_keywords_only (mapping : mapping_arg)
    (kwargs : gmap string pyobj) :
  (forall k, is_Some (arg_dict mapping !! k) -> k ∈ compression_keys) ->
  no_compression mapping kwargs = ∅.
Proof.
  intros Honly. apply map_eq. intros k.
  rewrite no_compression_lookup, lookup_empty.
  destruct (decide (k ∈ compression_keys)) as [| Hout]; [done |].
  destruct (arg_dict mapping !! k) as [v |] eqn:Hk; [| done].
  destruct Hout. apply Honly. by rewrite Hk.
Qed.

Lemma no_compression_of_keywords_only_witness :
  no_compression (ArgDict {[ KStr "compression" := PyStr "gzip" ]}) ∅ = ∅.
Proof.
  apply (no_compression_of_keywords_only
           (ArgDict {[ KStr "compression" := PyStr "gzip" ]}) ∅).
  intros k [v Hk]. simpl in Hk.
  apply lookup_singleton_Some in Hk as [<- _].
  apply elem_of_cons. by left.
Defined.
